(** * weberr: typed errors with user messages and stack traces

    A shallow embedding of [errors.go] (package [weberr]) and of the part
    of the imported package [github.com/pkg/errors] that it calls, followed
    by the properties of the wrapping algebra: how the error type, the user
    message, the diagnostic message and the stack trace propagate through
    layers of wrapping. *)

From Stdlib Require Import String Ascii List NArith Bool DecimalString Lia.
Import ListNotations.
Open Scope string_scope.

(** ** Data model *)

(** [type ErrorType uint] with its [iota] constants.  No arithmetic is ever
    done on an [ErrorType]; it is only stored and compared. *)
Definition ErrorType : Type := N.

Definition NoType : ErrorType := 0%N.
Definition BadRequest : ErrorType := 1%N.
Definition NotFound : ErrorType := 2%N.
Definition Unauthorized : ErrorType := 3%N.
Definition Conflict : ErrorType := 4%N.

(** [errors.Frame]: a program counter, kept as what the runtime resolves it
    to (function name, file, line). *)
Record Frame : Type := mkFrame { name : string; file : string; line : N }.

(** [errors.StackTrace], the frames from innermost (newer) to outermost. *)
Definition StackTrace : Type := list Frame.

(** The dynamic types an [error] interface value can hold here:
    - [errorString]: a plain error of the Go standard library
      ([errors.New] of package [errors], e.g. [io.EOF]);
    - [fundamental], [withMessage], [withStack]: the error types of
      [github.com/pkg/errors];
    - [customError]: this package's struct, with its embedded [error] and
      its fields [errorType] and [userMessage].
    A value of this type is a non-nil error; the [nil] interface value is
    [None] of [option error].  The embedded errors are never [nil]: every
    function below that builds a node tests [err == nil] before. *)
Inductive error : Type :=
| errorString (s : string)
| fundamental (msg : string) (stack : StackTrace)
| withMessage (cause : error) (msg : string)
| withStack (err : error) (stack : StackTrace)
| customError (err : error) (errorType : ErrorType) (userMessage : string).

(** The [Error()] method.  [customError] and [withStack] embed an [error]
    and get the method of the embedded value. *)
Fixpoint Error (e : error) : string :=
  match e with
  | errorString s => s
  | fundamental msg _ => msg
  | withMessage cause msg => msg ++ ": " ++ Error cause
  | withStack err _ => Error err
  | customError err _ _ => Error err
  end.

(** ** Interfaces

    A type assertion [v, ok := err.(I)] followed by the call of the method
    of [I]: [Some] of the method's result when the dynamic type of [err] has
    the method, [None] when the assertion fails. *)

(** [err.(causer)] and [Cause()]. *)
Definition as_causer (err : error) : option error :=
  match err with
  | withMessage cause _ => Some cause
  | withStack e _ => Some e
  | customError e _ _ => Some e
  | errorString _ | fundamental _ _ => None
  end.

(** [err.(typed)] and [Type()]. *)
Definition as_typed (err : error) : option ErrorType :=
  match err with
  | customError _ errorType _ => Some errorType
  | _ => None
  end.

(** [err.(userMessager)] and [UserMessage()]. *)
Definition as_userMessager (err : error) : option string :=
  match err with
  | customError _ _ userMessage => Some userMessage
  | _ => None
  end.

(** [err.(stackTracer)] and [StackTrace()].  An embedded interface gives a
    struct the methods of the interface only, so a [customError] has no
    [StackTrace()] even when the error it embeds has one. *)
Definition as_stackTracer (err : error) : option StackTrace :=
  match err with
  | fundamental _ stack => Some stack
  | withStack _ stack => Some stack
  | _ => None
  end.

(** ** Formatting *)

Definition newline : string := String (ascii_of_nat 10) EmptyString.
Definition tab : string := String (ascii_of_nat 9) EmptyString.

(** [strconv.Itoa] on a line number. *)
Definition Itoa (n : N) : string := NilZero.string_of_uint (N.to_uint n).

(** A [Frame] under [%+v]: function name, newline and tab, file, colon,
    line. *)
Definition Frame_Format (f : Frame) : string :=
  name f ++ newline ++ tab ++ file f ++ ":" ++ Itoa (line f).

(** A [StackTrace] under [%+v]: every frame preceded by a newline. *)
Fixpoint StackTrace_Format (st : StackTrace) : string :=
  match st with
  | [] => ""
  | f :: st' => newline ++ Frame_Format f ++ StackTrace_Format st'
  end.

(** A non-nil error under [%+v].  The types of [github.com/pkg/errors] have
    a [Format] method; [errorString] and [customError] have none and are
    printed through [Error()]. *)
Fixpoint error_Format (e : error) : string :=
  match e with
  | errorString s => s
  | fundamental msg stack => msg ++ StackTrace_Format stack
  | withMessage cause msg => error_Format cause ++ newline ++ msg
  | withStack err stack => error_Format err ++ StackTrace_Format stack
  | customError err _ _ => Error err
  end.

(** [fmt.Sprintf("%+v", err)] for an error interface value. *)
Definition Sprintf_plus_v (err : option error) : string :=
  match err with
  | None => "<nil>"
  | Some e => error_Format e
  end.

(** The slice expression [st[1:]], which panics on an empty slice. *)
Definition slice_from_1 {A : Type} (st : list A) : option (list A) :=
  match st with
  | [] => None
  | _ :: st' => Some st'
  end.

(** ** The imported package [github.com/pkg/errors]

    A formatted message [fmt.Sprintf(msg, args...)] is passed as the text
    [msg] it results in: every function formats its [msg] and [args] at once
    and uses nothing else of them.  The stack that [callers()] captures is
    the argument [pcs].  [WithStack] and [Wrapf] are given for a non-nil
    [err], the only way this package calls them. *)
Module errors.

Definition New (message : string) (pcs : StackTrace) : error :=
  fundamental message pcs.

Definition Errorf (msg : string) (pcs : StackTrace) : error :=
  fundamental msg pcs.

Definition WithStack (err : error) (pcs : StackTrace) : error :=
  withStack err pcs.

Definition Wrapf (err : error) (msg : string) (pcs : StackTrace) : error :=
  withStack (withMessage err msg) pcs.

End errors.

(** ** Package [weberr] *)

Definition GetType (err : option error) : ErrorType :=
  match err with
  | Some e =>
      match as_typed e with
      | Some t => t
      | None => NoType
      end
  | None => NoType
  end.

Definition GetUserMessage (err : option error) : string :=
  match err with
  | Some e =>
      match as_userMessager e with
      | Some m => m
      | None => ""
      end
  | None => ""
  end.

(** [errorType.Errorf]: [pcs0] is the stack captured by [errors.Errorf],
    [pcs] the one captured by [errors.WithStack]. *)
Definition Errorf (errorType : ErrorType) (msg : string)
    (pcs0 pcs : StackTrace) : option error :=
  Some (customError (errors.WithStack (errors.Errorf msg pcs0) pcs)
          errorType "").

Definition Wrapf (errorType : ErrorType) (err : option error) (msg : string)
    (pcs : StackTrace) : option error :=
  match err with
  | None => None
  | Some e =>
      let c_error := errors.Wrapf e msg pcs in
      let c_userMessage := GetUserMessage err in
      let c_errorType :=
        if negb (N.eqb errorType NoType) then errorType else GetType err in
      Some (customError c_error c_errorType c_userMessage)
  end.

Definition UserWrapf (errorType : ErrorType) (err : option error)
    (msg : string) (pcs : StackTrace) : option error :=
  match err with
  | None => None
  | Some e =>
      let userMsg := msg in
      let c_error := errors.WithStack e pcs in
      let origMsg := GetUserMessage err in
      let userMsg :=
        if negb (String.eqb origMsg "") then userMsg ++ ": " ++ origMsg
        else userMsg in
      let c_errorType :=
        if negb (N.eqb errorType NoType) then errorType else GetType err in
      Some (customError c_error c_errorType userMsg)
  end.

(** [errorType.UserErrorf]: [pcs0] is the stack captured by [errors.New],
    [pcs] the one captured by [errors.WithStack]. *)
Definition UserErrorf (errorType : ErrorType) (msg : string)
    (pcs0 pcs : StackTrace) : option error :=
  let message := msg in
  Some (customError (errors.WithStack (errors.New message pcs0) pcs)
          errorType message).

Definition Set_ (errorType : ErrorType) (err : option error)
    (pcs : StackTrace) : option error :=
  match err with
  | None => None
  | Some e =>
      Some (customError (errors.WithStack e pcs) errorType
              (GetUserMessage err))
  end.

(** The package-level functions, [NoType] being the receiver. *)
Module weberr.
Definition Errorf := Errorf NoType.
Definition Wrapf := Wrapf NoType.
Definition UserErrorf := UserErrorf NoType.
Definition UserWrapf := UserWrapf NoType.
End weberr.

(** [baseStackTracer]: the recursion is on the cause of [err], written out
    for the three types that have a [Cause()]; [baseStackTracer_unfold]
    below gives it in the shape of the source. *)
Fixpoint baseStackTracer (err : error) : option error :=
  let after (candidate : option error) : option error :=
    match candidate with
    | Some c => Some c
    | None =>
        match as_stackTracer err with
        | Some _ => Some err
        | None => None
        end
    end in
  match err with
  | withMessage cause _ => after (baseStackTracer cause)
  | withStack e _ => after (baseStackTracer e)
  | customError e _ _ => after (baseStackTracer e)
  | errorString _ | fundamental _ _ => None
  end.

(** [GetStackTrace]; [None] is the run-time panic of [st[1:]] on an empty
    stack trace. *)
Definition GetStackTrace (err : option error) : option string :=
  match err with
  | None => Some ""
  | Some e =>
      let err := baseStackTracer e in
      match
        match err with
        | Some x => as_stackTracer x
        | None => None
        end
      with
      | None => Some (Sprintf_plus_v err)
      | Some st =>
          match slice_from_1 st with
          | Some st1 => Some (StackTrace_Format st1 ++ newline)
          | None => None
          end
      end
  end.

(** [io.EOF] *)
Definition ioEOF : error := errorString "EOF".

(** ** Vocabulary of the properties *)

(** The [ok] of the type assertions [err.(causer)] and [err.(stackTracer)]. *)
Definition is_causer (err : error) : bool :=
  match as_causer err with Some _ => true | None => false end.

Definition is_stackTracer (err : error) : bool :=
  match as_stackTracer err with Some _ => true | None => false end.

(** [err.Error()] on an interface value; calling it on [nil] panics. *)
Definition ErrorOf (err : option error) : option string :=
  option_map Error err.

(** No node of the chain of causes carries a stack trace. *)
Fixpoint untraced (e : error) : bool :=
  match e with
  | errorString _ => true
  | fundamental _ _ => false
  | withMessage cause _ => untraced cause
  | withStack _ _ => false
  | customError err _ _ => untraced err
  end.

(** One wrapping operation of the package, with its arguments. *)
Inductive layer : Type :=
| ByWrapf (errorType : ErrorType) (msg : string) (pcs : StackTrace)
| ByUserWrapf (errorType : ErrorType) (msg : string) (pcs : StackTrace)
| BySet (errorType : ErrorType) (pcs : StackTrace).

Definition applyLayer (err : option error) (l : layer) : option error :=
  match l with
  | ByWrapf errorType msg pcs => Wrapf errorType err msg pcs
  | ByUserWrapf errorType msg pcs => UserWrapf errorType err msg pcs
  | BySet errorType pcs => Set_ errorType err pcs
  end.

(** A finite sequence of wrapping operations, the first of the list applied
    first (innermost). *)
Definition applyLayers (err : option error) (ls : list layer) : option error :=
  fold_left applyLayer ls err.

(** Following the words of the specification for the user-message accessor:
    the [userMessage] of the outermost layer of the chain that carries a
    non-empty one, and the empty string when no layer carries one. *)
Fixpoint outermostUserMessage (e : error) : string :=
  match e with
  | errorString _ | fundamental _ _ => ""
  | withMessage cause _ => outermostUserMessage cause
  | withStack err _ => outermostUserMessage err
  | customError err _ userMessage =>
      if String.eqb userMessage "" then outermostUserMessage err
      else userMessage
  end.

(** Values for the closed examples: a captured stack, a [fundamental] error
    handed over as it is, the result of [NoType.UserErrorf("denied")], and
    [NotFound.Wrapf] of it. *)
Definition sampleStack : StackTrace :=
  [mkFrame "weberr.ErrorType.UserErrorf" "/weberr/errors.go" 151;
   mkFrame "main.run" "/app/main.go" 10;
   mkFrame "main.main" "/app/main.go" 3].

Definition tracedLeaf : error := errors.New "boom" sampleStack.

Definition deniedError : error :=
  customError (withStack (fundamental "denied" sampleStack) sampleStack)
    NoType "denied".

Definition deniedLookup : error :=
  customError (withStack (withMessage deniedError "lookup") sampleStack)
    NotFound "denied".

(** ** Vocabulary of the properties of layered chains *)

(** The nodes of the chain of causes, [err] first: what repeated calls of
    [Cause()] visit. *)
Fixpoint chain (err : error) : list error :=
  err ::
  match err with
  | withMessage cause _ => chain cause
  | withStack e _ => chain e
  | customError e _ _ => chain e
  | errorString _ | fundamental _ _ => []
  end.

(** The stack a layer captures. *)
Definition layerStack (l : layer) : StackTrace :=
  match l with
  | ByWrapf _ _ pcs | ByUserWrapf _ _ pcs | BySet _ pcs => pcs
  end.

(** The messages given to the [Wrapf] layers, in the order of application. *)
Fixpoint wrapfMessages (ls : list layer) : list string :=
  match ls with
  | [] => []
  | ByWrapf _ msg _ :: ls' => msg :: wrapfMessages ls'
  | _ :: ls' => wrapfMessages ls'
  end.

(** The messages given to the [UserWrapf] layers, in the order of
    application. *)
Fixpoint userWrapfMessages (ls : list layer) : list string :=
  match ls with
  | [] => []
  | ByUserWrapf _ msg _ :: ls' => msg :: userWrapfMessages ls'
  | _ :: ls' => userWrapfMessages ls'
  end.

(** A user message as a list of parts: none when it is empty. *)
Definition userPart (u : string) : list string :=
  if String.eqb u "" then [] else [u].

Definition nonEmpty (s : string) : bool := negb (String.eqb s "").

(** The type a layer decides by itself: [Set] always, [Wrapf] and
    [UserWrapf] with a receiver other than [NoType]. *)
Definition forcedType (l : layer) : option ErrorType :=
  match l with
  | BySet k _ => Some k
  | ByWrapf k _ _ | ByUserWrapf k _ _ =>
      if N.eqb k NoType then None else Some k
  end.

(** The type decided by the outermost (last applied) layer that decides
    one. *)
Fixpoint outermostForcedType (ls : list layer) : option ErrorType :=
  match ls with
  | [] => None
  | l :: ls' =>
      match outermostForcedType ls' with
      | Some k => Some k
      | None => forcedType l
      end
  end.

(** The layers of the package-level functions [Wrapf] and [UserWrapf],
    which call the methods of the same name on [NoType]. *)
Definition packageLevel (l : layer) : bool :=
  match l with
  | ByWrapf k _ _ | ByUserWrapf k _ _ => N.eqb k NoType
  | BySet _ _ => false
  end.

(** Every stack captured in the chain holds a frame, as every result of
    [callers()] does. *)
Fixpoint capturedNonEmpty (e : error) : bool :=
  match e with
  | errorString _ => true
  | fundamental _ stack => negb (Nat.eqb (length stack) 0)
  | withMessage cause _ => capturedNonEmpty cause
  | withStack err stack =>
      negb (Nat.eqb (length stack) 0) && capturedNonEmpty err
  | customError err _ _ => capturedNonEmpty err
  end.

(** A foreign error with a trace of its own: [errors.WithStack(io.EOF)]. *)
Definition tracedEOF : error := errors.WithStack ioEOF sampleStack.

(** Three layers: [NotFound.Wrapf], [UserWrapf], [BadRequest.UserWrapf]. *)
Definition sampleLayers : list layer :=
  [ByWrapf NotFound "lookup" sampleStack;
   ByUserWrapf NoType "not there" sampleStack;
   ByUserWrapf BadRequest "try again" sampleStack].

(** ** The tables of [errors_test.go] *)

Example TestGetUserMessage_table (p : StackTrace) :
  GetUserMessage None = "" /\
  GetUserMessage (Some ioEOF) = "" /\
  GetUserMessage (weberr.UserWrapf (Some ioEOF) "End Of File" p)
    = "End Of File" /\
  GetUserMessage (UserErrorf NoType "New User Message!" p p)
    = "New User Message!" /\
  GetUserMessage
    (weberr.UserWrapf (UserErrorf BadRequest "Internal" p p) "External" p)
    = "External: Internal".
Proof. repeat split. Qed.

Example TestWrapf_table (p : StackTrace) :
  ErrorOf (weberr.Wrapf (Some ioEOF) "End Of File" p)
    = Some "End Of File: EOF" /\
  ErrorOf (Errorf NoType "New Error!" p p) = Some "New Error!" /\
  ErrorOf (weberr.Wrapf (Errorf BadRequest "Internal" p p) "External" p)
    = Some "External: Internal" /\
  ErrorOf (weberr.UserWrapf (Errorf BadRequest "Internal" p p) "External" p)
    = Some "Internal" /\
  ErrorOf
    (weberr.Wrapf
       (Wrapf Unauthorized (weberr.Wrapf (Some ioEOF) "1" p) "2" p) "3" p)
    = Some "3: 2: 1: EOF".
Proof. repeat split. Qed.

Example TestGetType_table (p : StackTrace) :
  GetType (Some ioEOF) = NoType /\
  GetType (weberr.Wrapf (Some ioEOF) "msg" p) = NoType /\
  GetType (weberr.UserErrorf "msg" p p) = NoType /\
  GetType (UserWrapf BadRequest (Some ioEOF) "msg" p) = BadRequest /\
  GetType (weberr.UserWrapf (UserErrorf NotFound "Not Found!" p p) "a" p)
    = NotFound /\
  GetType
    (Wrapf NotFound
       (weberr.Wrapf (UserWrapf BadRequest (Some ioEOF) "msg" p) "no type" p)
       "Not Found" p)
    = NotFound /\
  GetType (Set_ NotFound (Set_ BadRequest (Some ioEOF) p) p) = NotFound.
Proof. repeat split. Qed.

(** The run of [TestGetStackTrace]: [UserErrorf], then [UserWrapf], then
    [Wrapf]. *)
Example TestGetStackTrace_run (f : Frame) (p0 p1 p2 p3 : StackTrace) :
  let err :=
    weberr.Wrapf
      (weberr.UserWrapf (UserErrorf NoType "user error" p0 (f :: p1))
         "wrap user" p2)
      "Wrapf" p3 in
  ErrorOf err = Some "Wrapf: user error" /\
  GetUserMessage err = "wrap user: user error" /\
  GetType err = NoType /\
  GetStackTrace err = Some (StackTrace_Format p1 ++ newline).
Proof. repeat split. Qed.

(** ** The walk to the base stack tracer *)

(** [baseStackTracer] in the shape of the source: assert [causer], recurse on
    the cause, keep a candidate, else test [stackTracer] on [err] itself. *)
Lemma baseStackTracer_unfold (err : error) :
  baseStackTracer err =
  match as_causer err with
  | Some cause =>
      match baseStackTracer cause with
      | Some candidate => Some candidate
      | None => if is_stackTracer err then Some err else None
      end
  | None => None
  end.
Proof.
  destruct err; simpl; try reflexivity;
    match goal with |- context [baseStackTracer ?c] =>
      destruct (baseStackTracer c); reflexivity end.
Qed.

(** Whatever the walk returns exposes a cause and carries a trace. *)
Lemma baseStackTracer_selects (err x : error) :
  baseStackTracer err = Some x ->
  is_causer x = true /\ is_stackTracer x = true.
Proof.
  induction err as [s | m st | c IH m | c IH st | c IH t u];
    simpl; intros H; try discriminate.
  - destruct (baseStackTracer c); [ now apply IH | discriminate ].
  - destruct (baseStackTracer c); [ now apply IH | ].
    injection H as <-. now split.
  - destruct (baseStackTracer c); [ now apply IH | discriminate ].
Qed.

(** The walk finds nothing in an untraced chain. *)
Lemma baseStackTracer_untraced (e : error) :
  untraced e = true -> baseStackTracer e = None.
Proof.
  induction e as [s | m st | c IH m | c IH st | c IH t u];
    simpl; intros H; try discriminate; try reflexivity;
    now rewrite (IH H).
Qed.

(** When the walk finds nothing, [GetStackTrace] formats the result of the
    walk, which is [nil], and not the error it was given. *)
Lemma GetStackTrace_no_base (e : error) :
  baseStackTracer e = None -> GetStackTrace (Some e) = Some "<nil>".
Proof.
  intros H. unfold GetStackTrace. now rewrite H.
Qed.

Lemma GetStackTrace_untraced (e : error) :
  untraced e = true -> GetStackTrace (Some e) = Some "<nil>".
Proof.
  intros H. now apply GetStackTrace_no_base, baseStackTracer_untraced.
Qed.

(** A layer on top of a chain with a base stack tracer keeps that base. *)
Lemma baseStackTracer_layer (e x : error) (l : layer) :
  baseStackTracer e = Some x ->
  exists e', applyLayer (Some e) l = Some e' /\ baseStackTracer e' = Some x.
Proof.
  intros H. destruct l; simpl; eexists; (split; [ reflexivity | ]);
    simpl; now rewrite H.
Qed.

Lemma baseStackTracer_layers (ls : list layer) (e x : error) :
  baseStackTracer e = Some x ->
  exists e', applyLayers (Some e) ls = Some e' /\ baseStackTracer e' = Some x.
Proof.
  revert e. induction ls as [| l ls IH]; intros e H.
  - exists e. now split.
  - destruct (baseStackTracer_layer e x l H) as (e1 & H1 & H2).
    destruct (IH e1 H2) as (e' & H3 & H4).
    exists e'. split; [ | exact H4 ].
    unfold applyLayers in *. simpl. now rewrite H1.
Qed.

(** [GetStackTrace] renders the trace of the base the walk found. *)
Lemma GetStackTrace_base (e c : error) (f : Frame) (pcs : StackTrace) :
  baseStackTracer e = Some (withStack c (f :: pcs)) ->
  GetStackTrace (Some e) = Some (StackTrace_Format pcs ++ newline).
Proof.
  intros H. unfold GetStackTrace. now rewrite H.
Qed.

(** ** Stack-trace recovery *)

(** C1, at its failing input.  The claim: for a chain without any captured
    stack trace, [GetStackTrace] returns the full representation of the
    error it was given.  On [io.EOF] that representation is ["EOF"], but
    [GetStackTrace] has overwritten [err] with the result of
    [baseStackTracer], which is [nil], and returns the text of [nil]. *)
Theorem C1_GetStackTrace_ioEOF_formats_nil :
  untraced ioEOF = true /\
  Sprintf_plus_v (Some ioEOF) = "EOF" /\
  GetStackTrace (Some ioEOF) = Some "<nil>".
Proof. repeat split. Qed.

(** C2: a root made by [Errorf] or [UserErrorf], under any finite sequence
    of [Wrapf], [UserWrapf] and [Set] layers: [GetStackTrace] returns the
    rendering of the trace captured at the root, the stacks of the layers
    playing no part, with the first frame [f] of the captured list left
    out. *)
Theorem C2_GetStackTrace_root_trace
    (errorType : ErrorType) (msg : string) (pcs0 : StackTrace)
    (f : Frame) (pcs : StackTrace) (ls : list layer) :
  GetStackTrace (applyLayers (Errorf errorType msg pcs0 (f :: pcs)) ls)
    = Some (StackTrace_Format pcs ++ newline) /\
  GetStackTrace (applyLayers (UserErrorf errorType msg pcs0 (f :: pcs)) ls)
    = Some (StackTrace_Format pcs ++ newline).
Proof.
  split.
  - destruct (baseStackTracer_layers ls
        (customError (withStack (fundamental msg pcs0) (f :: pcs))
           errorType "")
        (withStack (fundamental msg pcs0) (f :: pcs)) eq_refl)
      as (e' & Happ & Hbase).
    unfold Errorf, errors.WithStack, errors.Errorf. rewrite Happ.
    exact (GetStackTrace_base _ _ _ _ Hbase).
  - destruct (baseStackTracer_layers ls
        (customError (withStack (fundamental msg pcs0) (f :: pcs))
           errorType msg)
        (withStack (fundamental msg pcs0) (f :: pcs)) eq_refl)
      as (e' & Happ & Hbase).
    unfold UserErrorf, errors.WithStack, errors.New. rewrite Happ.
    exact (GetStackTrace_base _ _ _ _ Hbase).
Qed.

(** C10: an error that carries a stack trace and exposes no cause (a
    [fundamental] error of [github.com/pkg/errors] handed over as it is):
    the walk returns no node for it, as it only ever returns nodes that both
    expose a cause and carry a trace, and [GetStackTrace] takes the branch
    without a stack trace, formatting the result of the walk. *)
Theorem C10_traced_leaf_takes_fallback (e : error) :
  is_stackTracer e = true ->
  is_causer e = false ->
  baseStackTracer e = None /\
  GetStackTrace (Some e) = Some (Sprintf_plus_v (baseStackTracer e)) /\
  (forall err x : error, baseStackTracer err = Some x ->
     is_causer x = true /\ is_stackTracer x = true).
Proof.
  intros Hst Hc.
  assert (Hnone : baseStackTracer e = None).
  { rewrite baseStackTracer_unfold. unfold is_causer in Hc.
    destruct (as_causer e); [ discriminate | reflexivity ]. }
  split; [ exact Hnone | split ].
  - rewrite Hnone. now apply GetStackTrace_no_base.
  - exact baseStackTracer_selects.
Qed.

Lemma C10_traced_leaf_witness :
  is_stackTracer tracedLeaf = true /\ is_causer tracedLeaf = false /\
  baseStackTracer tracedLeaf = None /\
  GetStackTrace (Some tracedLeaf) = Some "<nil>".
Proof.
  destruct (C10_traced_leaf_takes_fallback tracedLeaf eq_refl eq_refl)
    as (Hbase & Hget & _).
  split; [ reflexivity | split; [ reflexivity | split ] ].
  - exact Hbase.
  - rewrite Hget, Hbase. reflexivity.
Defined.

(** ** Error types *)

(** C3: [Set] forces the type of the result to its receiver, also when the
    receiver is [NoType]: a [Set] over a [Set] wins, and [NoType.Set] resets
    an error that carries another type. *)
Theorem C3_Set_forces_type :
  (forall (k : ErrorType) (e : error) (pcs : StackTrace),
     GetType (Set_ k (Some e) pcs) = k) /\
  (forall (anyErr : error) (pcs1 pcs2 : StackTrace),
     GetType (Set_ NotFound (Set_ BadRequest (Some anyErr) pcs1) pcs2)
       = NotFound) /\
  (forall (c : error) (k : ErrorType) (u : string) (pcs : StackTrace),
     GetType (Some (customError c k u)) = k /\
     GetType (Set_ NoType (Some (customError c k u)) pcs) = NoType).
Proof.
  repeat split.
Qed.

(** C4: [Wrapf] and [UserWrapf] on a non-nil error: a receiver other than
    [NoType] is the type of the result, whatever the type of [err]; under
    [NoType] the result has the type of [err]. *)
Theorem C4_wrap_type_resolution
    (k : ErrorType) (err : error) (msg : string) (pcs : StackTrace) :
  GetType (Wrapf k (Some err) msg pcs)
    = (if N.eqb k NoType then GetType (Some err) else k) /\
  GetType (UserWrapf k (Some err) msg pcs)
    = (if N.eqb k NoType then GetType (Some err) else k).
Proof.
  unfold Wrapf, UserWrapf; simpl.
  case (N.eqb k NoType); simpl; split; reflexivity.
Qed.

(** ** Diagnostic and user messages *)

Lemma append_nonempty (s : string) (a : ascii) (t : string) :
  String.eqb (s ++ String a t) "" = false.
Proof. destruct s; reflexivity. Qed.

(** The user message [UserWrapf] computes from the formatted text and the
    user message of the wrapped error. *)
Lemma GetUserMessage_UserWrapf
    (k : ErrorType) (err : error) (msg : string) (pcs : StackTrace) :
  GetUserMessage (UserWrapf k (Some err) msg pcs)
    = (if String.eqb (GetUserMessage (Some err)) "" then msg
       else msg ++ ": " ++ GetUserMessage (Some err)).
Proof.
  unfold UserWrapf. cbn [GetUserMessage as_userMessager].
  now destruct (String.eqb _ "").
Qed.

(** [Wrapf] and [Set] hand the user message on as it is. *)
Lemma GetUserMessage_Wrapf
    (k : ErrorType) (err : error) (msg : string) (pcs : StackTrace) :
  GetUserMessage (Wrapf k (Some err) msg pcs) = GetUserMessage (Some err).
Proof. reflexivity. Qed.

Lemma GetUserMessage_Set
    (k : ErrorType) (err : error) (pcs : StackTrace) :
  GetUserMessage (Set_ k (Some err) pcs) = GetUserMessage (Some err).
Proof. reflexivity. Qed.

(** C5: the user message of [UserWrapf] is the newly formatted message when
    the wrapped error has an empty user message and ["<new>: <existing>"]
    otherwise; three [UserWrapf] over [io.EOF] (no user message) with the
    messages 1, 2 and 3 give ["3: 2: 1"]. *)
Theorem C5_UserWrapf_user_message :
  (forall (k : ErrorType) (err : error) (msg : string) (pcs : StackTrace),
     GetUserMessage (UserWrapf k (Some err) msg pcs)
       = (if String.eqb (GetUserMessage (Some err)) "" then msg
          else msg ++ ": " ++ GetUserMessage (Some err))) /\
  GetUserMessage (Some ioEOF) = "" /\
  (forall (k1 k2 k3 : ErrorType) (p1 p2 p3 : StackTrace),
     GetUserMessage
       (UserWrapf k3 (UserWrapf k2 (UserWrapf k1 (Some ioEOF) "1" p1) "2" p2)
          "3" p3)
       = "3: 2: 1").
Proof.
  split; [ exact GetUserMessage_UserWrapf | split; reflexivity ].
Qed.

(** C6: the diagnostic message of [Wrapf] on a non-nil error is the newly
    formatted message, a colon and a space, and the message of the wrapped
    error; two [Wrapf] compose, and over [io.EOF] with the messages inner and
    outer they give ["outer: inner: EOF"]. *)
Theorem C6_Wrapf_diagnostic_message :
  (forall (k : ErrorType) (err : error) (msg : string) (pcs : StackTrace),
     ErrorOf (Wrapf k (Some err) msg pcs) = Some (msg ++ ": " ++ Error err)) /\
  (forall (k1 k2 : ErrorType) (err : error) (inner outer : string)
          (p1 p2 : StackTrace),
     ErrorOf (Wrapf k2 (Wrapf k1 (Some err) inner p1) outer p2)
       = Some (outer ++ ": " ++ inner ++ ": " ++ Error err)) /\
  Error ioEOF = "EOF" /\
  (forall (k1 k2 : ErrorType) (p1 p2 : StackTrace),
     ErrorOf (Wrapf k2 (Wrapf k1 (Some ioEOF) "inner" p1) "outer" p2)
       = Some "outer: inner: EOF").
Proof.
  repeat split.
Qed.



(** On a [customError] whose user message is that of the chain below it
    whenever it is empty, the accessor agrees with the walk. *)
Lemma outermostUserMessage_customError (c : error) (t : ErrorType) (u : string) :
  (u = "" -> outermostUserMessage c = "") ->
  outermostUserMessage (customError c t u) = u.
Proof.
  intros H. simpl. destruct (String.eqb u "") eqn:E; [ | reflexivity ].
  apply String.eqb_eq in E. rewrite (H E). now subst.
Qed.

(** C8, its counterexample: [errors.WithStack] of [github.com/pkg/errors]
    around an error made by [UserErrorf].  The chain carries the user
    message ["denied"], the outermost node is no [userMessager], and
    [GetUserMessage] returns the empty string. *)
Lemma C8_foreign_wrapper_counterexample :
  UserErrorf NoType "denied" sampleStack sampleStack = Some deniedError /\
  outermostUserMessage (errors.WithStack deniedError sampleStack)
    = "denied" /\
  GetUserMessage (Some (errors.WithStack deniedError sampleStack)) = "" /\
  GetUserMessage (Some (errors.WithStack deniedError sampleStack))
    <> outermostUserMessage (errors.WithStack deniedError sampleStack).
Proof.
  repeat split. discriminate.
Qed.

(** ** The absent error *)

(** C9: every function of the package is defined on [nil]: the accessors
    return [NoType] and empty strings, and [Wrapf], [UserWrapf] and [Set]
    (with any receiver, and so the package-level [Wrapf] and [UserWrapf]
    too) return [nil]. *)
Theorem C9_nil_is_absorbing :
  GetType None = NoType /\
  GetUserMessage None = "" /\
  GetStackTrace None = Some "" /\
  (forall (k : ErrorType) (msg : string) (pcs : StackTrace),
     Wrapf k None msg pcs = None /\ UserWrapf k None msg pcs = None) /\
  (forall (k : ErrorType) (pcs : StackTrace), Set_ k None pcs = None) /\
  (forall (msg : string) (pcs : StackTrace),
     weberr.Wrapf None msg pcs = None /\ weberr.UserWrapf None msg pcs = None).
Proof.
  repeat split.
Qed.

(** ** Sequences of layers *)

Lemma string_app_assoc (a b c : string) : (a ++ b) ++ c = a ++ (b ++ c).
Proof. induction a as [| x a IH]; simpl; [ reflexivity | now rewrite IH ]. Qed.

Lemma string_app_nil_r (a : string) : a ++ "" = a.
Proof. induction a as [| x a IH]; simpl; [ reflexivity | now rewrite IH ]. Qed.

Lemma join_nonempty (a b : string) : String.eqb (a ++ ": " ++ b) "" = false.
Proof. exact (append_nonempty a ":" (String " " b)). Qed.

(** Joining with a separator: the last two parts may be joined first. *)
Lemma concat_last_two (sep a b : string) (parts : list string) :
  String.concat sep (parts ++ [a; b])
    = String.concat sep (parts ++ [a ++ sep ++ b]).
Proof.
  induction parts as [| x parts IH]; [ reflexivity | ].
  destruct parts as [| y parts]; [ reflexivity | ].
  change (x ++ sep ++ String.concat sep ((y :: parts) ++ [a; b])
          = x ++ sep ++ String.concat sep ((y :: parts) ++ [a ++ sep ++ b])).
  now rewrite IH.
Qed.

Lemma applyLayers_cons (err : option error) (l : layer) (ls : list layer) :
  applyLayers err (l :: ls) = applyLayers (applyLayer err l) ls.
Proof. reflexivity. Qed.

Lemma applyLayer_nil (l : layer) : applyLayer None l = None.
Proof. now destruct l. Qed.

Lemma applyLayers_nil (ls : list layer) : applyLayers None ls = None.
Proof.
  induction ls as [| l ls IH]; [ reflexivity | ].
  now rewrite applyLayers_cons, applyLayer_nil.
Qed.

Lemma applyLayer_Some (e : error) (l : layer) :
  exists e1, applyLayer (Some e) l = Some e1.
Proof. destruct l; eexists; reflexivity. Qed.

(** What one layer does to the three accessors. *)
Lemma Error_applyLayer (e e1 : error) (l : layer) :
  applyLayer (Some e) l = Some e1 ->
  Error e1 = match l with
             | ByWrapf _ msg _ => msg ++ ": " ++ Error e
             | _ => Error e
             end.
Proof. destruct l; simpl; intros H; injection H as <-; reflexivity. Qed.

Lemma GetUserMessage_applyLayer (e e1 : error) (l : layer) :
  applyLayer (Some e) l = Some e1 ->
  GetUserMessage (Some e1)
    = match l with
      | ByUserWrapf _ msg _ =>
          if String.eqb (GetUserMessage (Some e)) "" then msg
          else msg ++ ": " ++ GetUserMessage (Some e)
      | _ => GetUserMessage (Some e)
      end.
Proof.
  destruct l as [k msg pcs | k msg pcs | k pcs]; intros H.
  - simpl in H. injection H as <-. reflexivity.
  - rewrite <- H. apply GetUserMessage_UserWrapf.
  - simpl in H. injection H as <-. reflexivity.
Qed.

Lemma GetType_applyLayer (e e1 : error) (l : layer) :
  applyLayer (Some e) l = Some e1 ->
  GetType (Some e1)
    = match forcedType l with
      | Some k => k
      | None => GetType (Some e)
      end.
Proof.
  destruct l as [k msg pcs | k msg pcs | k pcs]; simpl; intros H;
    injection H as <-; simpl; try reflexivity;
    now destruct (N.eqb k NoType).
Qed.

(** Wrapping never makes an error out of nothing, and never loses one:
    a sequence of [Wrapf], [UserWrapf] and [Set] returns [nil] exactly when
    it was given [nil]; [Errorf] and [UserErrorf] never return [nil]. *)
Theorem layers_nil_iff_nil :
  (forall (err : option error) (ls : list layer),
     applyLayers err ls = None <-> err = None) /\
  (forall (k : ErrorType) (msg : string) (pcs0 pcs : StackTrace),
     Errorf k msg pcs0 pcs <> None /\ UserErrorf k msg pcs0 pcs <> None).
Proof.
  split; [ | intros; split; discriminate ].
  intros err ls; split.
  - revert err. induction ls as [| l ls IH]; intros err H; [ exact H | ].
    rewrite applyLayers_cons in H. apply IH in H.
    destruct err as [e |]; [ | reflexivity ].
    destruct (applyLayer_Some e l) as [e1 H1]. congruence.
  - intros ->. apply applyLayers_nil.
Qed.

(** The diagnostic message under any sequence of layers: the messages of the
    [Wrapf] layers, the outermost first, and the message of the wrapped
    error, joined by a colon and a space; [UserWrapf] and [Set] layers add
    nothing to it. *)
Theorem Error_of_layers (e : error) (ls : list layer) :
  ErrorOf (applyLayers (Some e) ls)
    = Some (String.concat ": " (rev (wrapfMessages ls) ++ [Error e])).
Proof.
  revert e. induction ls as [| l ls IH]; intros e; [ reflexivity | ].
  destruct (applyLayer_Some e l) as [e1 H1].
  rewrite applyLayers_cons, H1, IH, (Error_applyLayer e e1 l H1).
  destruct l as [k msg pcs | k msg pcs | k pcs]; try reflexivity.
  cbn [wrapfMessages rev]. rewrite <- app_assoc. cbn [app].
  now rewrite concat_last_two.
Qed.

(** The type under any sequence of layers: the type decided by the outermost
    layer that decides one ([Set] with any receiver, [Wrapf] and [UserWrapf]
    with a receiver other than [NoType]), and the type of the wrapped error
    when no layer decides. *)
Theorem GetType_of_layers (e : error) (ls : list layer) :
  GetType (applyLayers (Some e) ls)
    = match outermostForcedType ls with
      | Some k => k
      | None => GetType (Some e)
      end.
Proof.
  revert e. induction ls as [| l ls IH]; intros e; [ reflexivity | ].
  destruct (applyLayer_Some e l) as [e1 H1].
  rewrite applyLayers_cons, H1, IH, (GetType_applyLayer e e1 l H1).
  cbn [outermostForcedType].
  now destruct (outermostForcedType ls).
Qed.

(** The user message under any sequence of layers whose [UserWrapf]
    messages are not empty: the messages of the [UserWrapf] layers, the
    outermost first, and the user message of the wrapped error when it has
    one, joined by a colon and a space; [Wrapf] and [Set] layers add nothing
    to it. *)
Theorem GetUserMessage_of_layers (e : error) (ls : list layer) :
  forallb nonEmpty (userWrapfMessages ls) = true ->
  GetUserMessage (applyLayers (Some e) ls)
    = String.concat ": "
        (rev (userWrapfMessages ls) ++ userPart (GetUserMessage (Some e))).
Proof.
  revert e. induction ls as [| l ls IH]; intros e Hne.
  - cbn [applyLayers fold_left userWrapfMessages rev app]. unfold userPart.
    destruct (String.eqb (GetUserMessage (Some e)) "") eqn:E;
      [ now apply String.eqb_eq in E | reflexivity ].
  - destruct (applyLayer_Some e l) as [e1 H1].
    rewrite applyLayers_cons, H1.
    pose proof (GetUserMessage_applyLayer e e1 l H1) as Hu.
    destruct l as [k msg pcs | k msg pcs | k pcs];
      cbn [userWrapfMessages] in *;
      try (rewrite (IH e1 Hne), Hu; reflexivity).
    cbn [forallb] in Hne. apply andb_prop in Hne as [Hmsg Hne].
    rewrite (IH e1 Hne), Hu. cbn [rev]. rewrite <- app_assoc. cbn [app].
    unfold userPart at 2.
    destruct (String.eqb (GetUserMessage (Some e)) "") eqn:E.
    + unfold userPart. unfold nonEmpty in Hmsg.
      now destruct (String.eqb msg "").
    + rewrite concat_last_two. unfold userPart.
      now rewrite join_nonempty.
Qed.

Lemma GetUserMessage_of_layers_witness :
  forallb nonEmpty (userWrapfMessages sampleLayers) = true /\
  GetUserMessage (applyLayers (Some deniedError) sampleLayers)
    = "try again: not there: denied".
Proof.
  split; [ reflexivity | ].
  rewrite (GetUserMessage_of_layers deniedError sampleLayers eq_refl).
  reflexivity.
Defined.

(** No layer drops what is below it: under any sequence of layers the user
    message ends with the user message of the wrapped error, and the
    diagnostic message ends with its diagnostic message. *)
Theorem layers_keep_inner_messages (e : error) (ls : list layer) :
  exists (e' : error) (p q : string),
    applyLayers (Some e) ls = Some e' /\
    GetUserMessage (Some e') = p ++ GetUserMessage (Some e) /\
    Error e' = q ++ Error e.
Proof.
  revert e. induction ls as [| l ls IH]; intros e.
  - exists e, "", "". repeat split.
  - destruct (applyLayer_Some e l) as [e1 H1].
    destruct (IH e1) as (e' & p & q & Happ & Hu & Hd).
    pose proof (GetUserMessage_applyLayer e e1 l H1) as Hu1.
    pose proof (Error_applyLayer e e1 l H1) as Hd1.
    rewrite applyLayers_cons, H1.
    destruct l as [k msg pcs | k msg pcs | k pcs].
    + exists e', p, (q ++ msg ++ ": "). split; [ exact Happ | split ].
      * now rewrite Hu, Hu1.
      * rewrite Hd, Hd1. now rewrite !string_app_assoc.
    + destruct (String.eqb (GetUserMessage (Some e)) "") eqn:E.
      * apply String.eqb_eq in E.
        exists e', (p ++ msg), q. split; [ exact Happ | split ].
        -- rewrite Hu, Hu1, E. now rewrite string_app_nil_r.
        -- now rewrite Hd, Hd1.
      * exists e', (p ++ msg ++ ": "), q. split; [ exact Happ | split ].
        -- rewrite Hu, Hu1. now rewrite !string_app_assoc.
        -- now rewrite Hd, Hd1.
    + exists e', p, q. split; [ exact Happ | split ].
      * now rewrite Hu, Hu1.
      * now rewrite Hd, Hd1.
Qed.

(** [chain] follows [Cause()]. *)
Lemma chain_unfold (err : error) :
  chain err = err :: match as_causer err with
                     | Some cause => chain cause
                     | None => []
                     end.
Proof. destruct err; reflexivity. Qed.

(** The wrapped error stays reachable through [Cause()]: the chain of the
    result of any sequence of layers is new nodes put before the chain of
    the wrapped error, three for a [Wrapf] and two for a [UserWrapf] or a
    [Set]. *)
Theorem layers_extend_chain (e : error) (ls : list layer) :
  exists (e' : error) (pre : list error),
    applyLayers (Some e) ls = Some e' /\
    chain e' = (pre ++ chain e)%list /\
    length pre = 2 * length ls + length (wrapfMessages ls).
Proof.
  revert e. induction ls as [| l ls IH]; intros e.
  - exists e, []. repeat split.
  - destruct (applyLayer_Some e l) as [e1 H1].
    destruct (IH e1) as (e' & pre & Happ & Hc & Hlen).
    rewrite applyLayers_cons, H1.
    destruct l as [k msg pcs | k msg pcs | k pcs]; simpl in H1;
      injection H1 as <-; cbn [chain errors.Wrapf errors.WithStack] in Hc.
    + eexists e', (pre ++ [_; _; _])%list. split; [ exact Happ | split ].
      * rewrite Hc, <- app_assoc. reflexivity.
      * rewrite length_app, Hlen. cbn [length wrapfMessages]. lia.
    + eexists e', (pre ++ [_; _])%list. split; [ exact Happ | split ].
      * rewrite Hc, <- app_assoc. reflexivity.
      * rewrite length_app, Hlen. cbn [length wrapfMessages]. lia.
    + eexists e', (pre ++ [_; _])%list. split; [ exact Happ | split ].
      * rewrite Hc, <- app_assoc. reflexivity.
      * rewrite length_app, Hlen. cbn [length wrapfMessages]. lia.
Qed.

(** ** More on stack-trace recovery *)

Lemma hd_error_rev_cons {A : Type} (x : A) (l : list A) :
  hd_error (rev (x :: l))
    = match hd_error (rev l) with
      | Some y => Some y
      | None => Some x
      end.
Proof. simpl. now destruct (rev l). Qed.

(** What the walk returns: the innermost node of the chain of causes that
    both exposes a cause and carries a stack trace, and [nil] when the chain
    has no such node. *)
Theorem baseStackTracer_innermost (e : error) :
  baseStackTracer e
    = hd_error
        (rev (filter (fun x => is_causer x && is_stackTracer x) (chain e))).
Proof.
  induction e as [s | m st | c IH m | c IH st | c IH t u];
    try reflexivity.
  - cbn [chain baseStackTracer filter is_causer is_stackTracer as_causer
         as_stackTracer andb].
    rewrite IH. now destruct (hd_error _).
  - cbn [chain baseStackTracer filter is_causer is_stackTracer as_causer
         as_stackTracer andb].
    rewrite hd_error_rev_cons, IH. reflexivity.
  - cbn [chain baseStackTracer filter is_causer is_stackTracer as_causer
         as_stackTracer andb].
    rewrite IH. now destruct (hd_error _).
Qed.

(** Once the walk finds a base in an error, no sequence of layers on top
    changes what [GetStackTrace] returns. *)
Theorem GetStackTrace_stable_under_layers
    (e x : error) (ls : list layer) :
  baseStackTracer e = Some x ->
  GetStackTrace (applyLayers (Some e) ls) = GetStackTrace (Some e).
Proof.
  intros H.
  destruct (baseStackTracer_layers ls e x H) as (e' & Happ & Hbase).
  rewrite Happ. unfold GetStackTrace. now rewrite H, Hbase.
Qed.

Lemma GetStackTrace_stable_under_layers_witness :
  baseStackTracer tracedEOF = Some tracedEOF /\
  GetStackTrace (applyLayers (Some tracedEOF) sampleLayers)
    = GetStackTrace (Some tracedEOF).
Proof.
  split; [ reflexivity | ].
  exact (GetStackTrace_stable_under_layers tracedEOF tracedEOF sampleLayers
           eq_refl).
Defined.

(** When the walk finds nothing in an error ([io.EOF], or an error of
    [errors.New] of [github.com/pkg/errors], whose own trace is passed
    over), the trace that [GetStackTrace] renders is the one captured by
    the first layer put on it, whatever layers follow. *)
Theorem GetStackTrace_first_layer
    (e : error) (l : layer) (ls : list layer) (f : Frame) (pcs : StackTrace) :
  baseStackTracer e = None ->
  layerStack l = f :: pcs ->
  GetStackTrace (applyLayers (Some e) (l :: ls))
    = Some (StackTrace_Format pcs ++ newline).
Proof.
  intros Hnone Hst.
  destruct (applyLayer_Some e l) as [e1 H1].
  assert (Hb : exists c, baseStackTracer e1 = Some (withStack c (f :: pcs))).
  { destruct l as [k msg p | k msg p | k p]; simpl in Hst, H1; subst p;
      injection H1 as <-; eexists; simpl; rewrite Hnone; reflexivity. }
  destruct Hb as [c Hb].
  rewrite applyLayers_cons, H1.
  rewrite (GetStackTrace_stable_under_layers e1 _ ls Hb).
  exact (GetStackTrace_base _ _ _ _ Hb).
Qed.

Lemma GetStackTrace_first_layer_witness :
  baseStackTracer tracedLeaf = None /\
  GetStackTrace
    (applyLayers (Some tracedLeaf)
       (BySet Conflict
          [mkFrame "weberr.ErrorType.Set" "/weberr/errors.go" 164;
           mkFrame "main.run" "/app/main.go" 12]
        :: sampleLayers))
    = Some (StackTrace_Format [mkFrame "main.run" "/app/main.go" 12]
            ++ newline).
Proof.
  split; [ reflexivity | ].
  exact (GetStackTrace_first_layer tracedLeaf
           (BySet Conflict
              [mkFrame "weberr.ErrorType.Set" "/weberr/errors.go" 164;
               mkFrame "main.run" "/app/main.go" 12])
           sampleLayers
           (mkFrame "weberr.ErrorType.Set" "/weberr/errors.go" 164)
           [mkFrame "main.run" "/app/main.go" 12]
           eq_refl eq_refl).
Defined.

(** [GetStackTrace] returns the empty string for [nil] and for nothing
    else. *)
Theorem GetStackTrace_empty_iff_nil (err : option error) :
  GetStackTrace err = Some "" <-> err = None.
Proof.
  split; [ | now intros -> ].
  destruct err as [e |]; [ | reflexivity ].
  unfold GetStackTrace.
  destruct (baseStackTracer e) as [x |] eqn:Hb; [ | discriminate ].
  destruct (baseStackTracer_selects e x Hb) as [_ Hst].
  unfold is_stackTracer in Hst.
  destruct (as_stackTracer x) as [st |]; [ | discriminate ].
  destruct (slice_from_1 st) as [st1 |]; [ | discriminate ].
  intros H. injection H as H.
  apply (f_equal (fun s => String.eqb s "")) in H.
  unfold newline in H. rewrite append_nonempty in H. discriminate.
Qed.

(** The node the walk returns is a [withStack] of the chain, with a stack
    that is not empty when no captured stack of the chain is. *)
Lemma baseStackTracer_captured (e x : error) :
  capturedNonEmpty e = true ->
  baseStackTracer e = Some x ->
  exists c f pcs, x = withStack c (f :: pcs).
Proof.
  induction e as [s | m st | c IH m | c IH st | c IH t u];
    simpl; intros Hne H; try discriminate.
  - destruct (baseStackTracer c); [ now apply IH | discriminate ].
  - apply andb_prop in Hne as [Hst Hne].
    destruct (baseStackTracer c); [ now apply IH | ].
    injection H as <-. destruct st as [| f pcs]; [ discriminate | ].
    now exists c, f, pcs.
  - destruct (baseStackTracer c); [ now apply IH | discriminate ].
Qed.

(** [GetStackTrace] does not panic on an error in which every captured
    stack holds a frame: it returns a text. *)
Theorem GetStackTrace_returns (e : error) :
  capturedNonEmpty e = true ->
  exists s : string, GetStackTrace (Some e) = Some s.
Proof.
  intros Hne. unfold GetStackTrace.
  destruct (baseStackTracer e) as [x |] eqn:Hb; [ | now eexists ].
  destruct (baseStackTracer_captured e x Hne Hb) as (c & f & pcs & ->).
  now eexists.
Qed.

Lemma GetStackTrace_returns_witness :
  capturedNonEmpty deniedLookup = true /\
  exists s : string, GetStackTrace (Some deniedLookup) = Some s.
Proof.
  split; [ reflexivity | ].
  exact (GetStackTrace_returns deniedLookup eq_refl).
Defined.

(** The panic is real: on an error whose base carries an empty stack trace
    [st[1:]] is out of range. *)
Example GetStackTrace_panics_on_empty_trace :
  GetStackTrace (Some (errors.WithStack ioEOF [])) = None.
Proof. reflexivity. Qed.

(** ** Roots and the package-level functions *)

(** A root made by [Errorf] has the type of the receiver, the formatted
    message as its diagnostic message and no user message; a root made by
    [UserErrorf] has the formatted message as its user message too. *)
Theorem roots_carry_type_and_messages
    (k : ErrorType) (msg : string) (pcs0 pcs : StackTrace) :
  (GetType (Errorf k msg pcs0 pcs) = k /\
   ErrorOf (Errorf k msg pcs0 pcs) = Some msg /\
   GetUserMessage (Errorf k msg pcs0 pcs) = "") /\
  (GetType (UserErrorf k msg pcs0 pcs) = k /\
   ErrorOf (UserErrorf k msg pcs0 pcs) = Some msg /\
   GetUserMessage (UserErrorf k msg pcs0 pcs) = msg).
Proof. repeat split. Qed.

(** The package-level functions never change a type: [Wrapf] and
    [UserWrapf] return an error of the type of the one they are given, [nil]
    included, and [Errorf] and [UserErrorf] return an error of type
    [NoType]. *)
Theorem package_level_functions_keep_type
    (err : option error) (msg : string) (pcs0 pcs : StackTrace) :
  GetType (weberr.Wrapf err msg pcs) = GetType err /\
  GetType (weberr.UserWrapf err msg pcs) = GetType err /\
  GetType (weberr.Errorf msg pcs0 pcs) = NoType /\
  GetType (weberr.UserErrorf msg pcs0 pcs) = NoType.
Proof.
  destruct err as [e |]; repeat split.
Qed.

Lemma outermostForcedType_packageLevel (ls : list layer) :
  forallb packageLevel ls = true -> outermostForcedType ls = None.
Proof.
  induction ls as [| l ls IH]; [ reflexivity | ].
  cbn [forallb outermostForcedType]. intros H.
  apply andb_prop in H as [Hl Hls]. rewrite (IH Hls).
  destruct l as [k msg pcs | k msg pcs | k pcs]; simpl in *;
    [ now rewrite Hl | now rewrite Hl | discriminate ].
Qed.

(** Any number of package-level [Wrapf] and [UserWrapf] calls, one on top of
    the other, leaves the type of an error as it is, the type [NoType] of
    [nil] and of a foreign error included. *)
Theorem package_level_wraps_keep_type
    (err : option error) (ls : list layer) :
  forallb packageLevel ls = true ->
  GetType (applyLayers err ls) = GetType err.
Proof.
  intros H. destruct err as [e |].
  - now rewrite GetType_of_layers, (outermostForcedType_packageLevel ls H).
  - now rewrite applyLayers_nil.
Qed.

Lemma package_level_wraps_keep_type_witness :
  forallb packageLevel
    [ByUserWrapf NoType "not there" sampleStack;
     ByWrapf NoType "lookup" sampleStack] = true /\
  GetType
    (weberr.Wrapf
       (weberr.UserWrapf (Some deniedLookup) "not there" sampleStack)
       "lookup" sampleStack)
    = NotFound.
Proof.
  split; [ reflexivity | ].
  exact (package_level_wraps_keep_type (Some deniedLookup)
           [ByUserWrapf NoType "not there" sampleStack;
            ByWrapf NoType "lookup" sampleStack] eq_refl).
Defined.

(** ** The user message and the outermost layer *)

(** When no node of a chain carries a user message, the accessor returns the
    empty string. *)
Lemma GetUserMessage_no_user_message (e : error) :
  outermostUserMessage e = "" -> GetUserMessage (Some e) = "".
Proof.
  destruct e as [s | m st | c m | c st | c t u]; try reflexivity.
  simpl. destruct (String.eqb u "") eqn:E; [ | intros H; exact H ].
  intros _. now apply String.eqb_eq.
Qed.

(** A layer on an error on which the accessor agrees with the walk gives an
    error on which it agrees. *)
Lemma outermostUserMessage_applyLayer (e e1 : error) (l : layer) :
  GetUserMessage (Some e) = outermostUserMessage e ->
  applyLayer (Some e) l = Some e1 ->
  GetUserMessage (Some e1) = outermostUserMessage e1.
Proof.
  intros Hag H.
  destruct l as [k msg pcs | k msg pcs | k pcs].
  - simpl in H. injection H as <-. symmetry.
    apply outermostUserMessage_customError. simpl.
    intros E. rewrite <- Hag. exact E.
  - unfold applyLayer, UserWrapf in H.
    remember (GetUserMessage (Some e)) as g eqn:Hg.
    destruct (String.eqb g "") eqn:E; simpl in H; injection H as <-;
      symmetry; apply outermostUserMessage_customError; simpl;
      rewrite <- Hag.
    + intros _. now apply String.eqb_eq.
    + intros E'. apply (f_equal (fun s => String.eqb s "")) in E'.
      rewrite (append_nonempty msg ":" (String " " g)) in E'.
      discriminate.
  - simpl in H. injection H as <-. symmetry.
    apply outermostUserMessage_customError. simpl.
    intros E. rewrite <- Hag. exact E.
Qed.

(** C8, amended.  [GetUserMessage] looks at the outermost node only.
    - On every chain in which no node carries a non-empty user message it
      returns the empty string.
    - On a root made by [Errorf] or [UserErrorf] it returns the user message
      of the outermost layer of the chain that carries a non-empty one.
    - Any sequence of [Wrapf], [UserWrapf] and [Set] layers keeps that: put
      on an error on which [GetUserMessage] returns the user message of the
      outermost layer carrying a non-empty one (a root, or an error without
      any user message in its chain, such as [io.EOF]), it gives an error on
      which it does.
    - On an error whose outermost node has no [UserMessage()] it returns
      the empty string, whatever the nodes beneath carry. *)
Theorem C8_GetUserMessage_outermost_layer :
  (forall e : error,
     outermostUserMessage e = "" -> GetUserMessage (Some e) = "") /\
  (forall (k : ErrorType) (msg : string) (pcs0 pcs : StackTrace),
     (exists e, Errorf k msg pcs0 pcs = Some e /\
                GetUserMessage (Some e) = outermostUserMessage e) /\
     (exists e, UserErrorf k msg pcs0 pcs = Some e /\
                GetUserMessage (Some e) = outermostUserMessage e)) /\
  (forall (base : error) (ls : list layer),
     GetUserMessage (Some base) = outermostUserMessage base ->
     exists e', applyLayers (Some base) ls = Some e' /\
                GetUserMessage (Some e') = outermostUserMessage e') /\
  (forall e : error,
     as_userMessager e = None -> GetUserMessage (Some e) = "").
Proof.
  split; [ exact GetUserMessage_no_user_message | split; [ | split ] ].
  - intros k msg pcs0 pcs. split; eexists; (split; [ reflexivity | ]).
    + reflexivity.
    + symmetry. now apply outermostUserMessage_customError.
  - intros base ls. revert base.
    induction ls as [| l ls IH]; intros base Hag.
    + exists base. now split.
    + destruct (applyLayer_Some base l) as [e1 H1].
      rewrite applyLayers_cons, H1.
      exact (IH e1 (outermostUserMessage_applyLayer base e1 l Hag H1)).
  - intros e H. simpl. now rewrite H.
Qed.

Lemma C8_GetUserMessage_outermost_layer_witness :
  (outermostUserMessage ioEOF = "" /\ GetUserMessage (Some ioEOF) = "") /\
  (GetUserMessage (Some deniedError) = outermostUserMessage deniedError /\
   exists e',
     applyLayers (Some deniedError) sampleLayers = Some e' /\
     GetUserMessage (Some e') = outermostUserMessage e') /\
  (as_userMessager tracedEOF = None /\ GetUserMessage (Some tracedEOF) = "").
Proof.
  destruct C8_GetUserMessage_outermost_layer as (HA & _ & HC & HD).
  split; [ | split ].
  - split; [ reflexivity | exact (HA ioEOF eq_refl) ].
  - split; [ reflexivity | exact (HC deniedError sampleLayers eq_refl) ].
  - split; [ reflexivity | exact (HD tracedEOF eq_refl) ].
Defined.
